(** * A shallow embedding of [fastapi_crud.py]

    The program is a FastAPI application with one module-level dictionary,
    [items_db], and one handler function per route.  Each handler is embedded
    as a computation over the dictionary that either returns a value or raises
    a Python exception; the dictionary it leaves behind is part of the result
    in both cases, so that what a failed request did to the store is visible.

    Conventions.
    - A Python [dict] keeps its keys in insertion order, and [read_items] and
      [search_items] observe that order: the dictionary is an association list,
      oldest key first.
    - Python integers are unbounded: [skip] and [limit] are in [Z].
    - Python [float] is an IEEE 754 binary64: [price] is a primitive float.  No
      arithmetic is ever done on it.
    - Strings are [string]; [str.lower] is embedded on the ASCII letters
      only (see [Str.lower]).
    - An attribute of a Python object can hold [None] whatever its annotation
      says, so the attributes of a stored [Item] are options: the annotations
      are a predicate on items ([Item_valid]), not a type. *)

From Stdlib Require Import String Ascii List ZArith Lia Bool PrimFloat.
From Stdlib Require Import DecimalString.
Import ListNotations.

Local Open Scope string_scope.
Local Open Scope list_scope.

(** ** Python strings *)

Module Str.

(** [c.lower()] for one ASCII character: the letters A to Z move down by 32.
    Any other character is left as it is. *)
Definition lower_ascii (c : ascii) : ascii :=
  let n := nat_of_ascii c in
  if (65 <=? n)%nat && (n <=? 90)%nat then ascii_of_nat (n + 32) else c.

(** [s.lower()] on text whose cased letters are the ASCII ones.  Python
    lowers every cased letter of Unicode; here a letter outside A to Z is left
    as it is, so this function and [str.lower] agree on ASCII text and may
    differ elsewhere.  What is proved below of [search_items] through the value
    of [lower] is proved of ASCII text. *)
Fixpoint lower (s : string) : string :=
  match s with
  | EmptyString => EmptyString
  | String c s' => String (lower_ascii c) (lower s')
  end.

(** [s.startswith(p)]. *)
Fixpoint startswith (p s : string) : bool :=
  match p, s with
  | EmptyString, _ => true
  | String _ _, EmptyString => false
  | String a p', String b s' => Ascii.eqb a b && startswith p' s'
  end.

(** [q in s] on strings: [q] occurs in [s] as a contiguous block. *)
Fixpoint contains (q s : string) : bool :=
  startswith q s ||
  match s with
  | EmptyString => false
  | String _ s' => contains q s'
  end.

(** The truth value of an [Optional[str]]: [None] and the empty string are
    false. *)
Definition truthy (o : option string) : bool :=
  match o with
  | None => false
  | Some EmptyString => false
  | Some (String _ _) => true
  end.

(** What "substring" means, independently of the scanning function. *)
Definition Substring (q s : string) : Prop :=
  exists pre post : string, s = (pre ++ q ++ post)%string.

End Str.

(** ** Python dictionaries with string keys *)

Section Dict.

Context {V : Type}.

Definition dict := list (string * V).

(** [d.get(k)]: the value under [k], if any. *)
Fixpoint dict_get (k : string) (d : dict) : option V :=
  match d with
  | [] => None
  | (k', v) :: d' => if String.eqb k k' then Some v else dict_get k d'
  end.

(** [k in d]. *)
Definition dict_contains (k : string) (d : dict) : bool :=
  match dict_get k d with Some _ => true | None => false end.

(** [d[k] = v]: an existing key keeps its position, a new key goes last. *)
Fixpoint dict_setitem (k : string) (v : V) (d : dict) : dict :=
  match d with
  | [] => [(k, v)]
  | (k', v') :: d' =>
      if String.eqb k k' then (k, v) :: d' else (k', v') :: dict_setitem k v d'
  end.

(** [del d[k]] when [k] is a key. *)
Definition dict_delitem (k : string) (d : dict) : dict :=
  filter (fun kv => negb (String.eqb k (fst kv))) d.

(** [list(d.values())]. *)
Definition dict_values (d : dict) : list V := map snd d.

(** [list(d.keys())]. *)
Definition dict_keys (d : dict) : list string := map fst d.

(** [len(d)]. *)
Definition dict_len (d : dict) : Z := Z.of_nat (length d).

(** The keys of a dictionary are pairwise distinct. *)
Definition dict_wf (d : dict) : Prop := NoDup (dict_keys d).

End Dict.

Arguments dict V : clear implicits.

(** ** Python list slicing *)

Section Slice.

Context {A : Type}.

(** How a slice bound is brought into [0 .. n]: a negative bound counts from
    the end, and what is still out of range is clamped. *)
Definition slice_bound (i n : Z) : Z :=
  if (i <? 0)%Z
  then (if (i + n <? 0)%Z then 0%Z else (i + n)%Z)
  else (if (n <? i)%Z then n else i).

(** [l[start:stop]]. *)
Definition slice (l : list A) (start stop : Z) : list A :=
  let n := Z.of_nat (length l) in
  let lo := slice_bound start n in
  let hi := slice_bound stop n in
  if (lo <? hi)%Z
  then firstn (Z.to_nat (hi - lo)) (skipn (Z.to_nat lo) l)
  else [].

End Slice.

(** ** The pydantic models *)

(** [Item(ItemBase)]: the attributes of an item object.  [ItemBase] annotates
    [name : str], [price : float] and [in_stock : bool]; an attribute assigned
    after construction is not validated, hence the options. *)
Record Item : Type := mkItem {
  id : string;
  name : option string;
  description : option string;
  price : option float;
  in_stock : option bool
}.

(** The annotations of [ItemBase] hold of an item. *)
Definition Item_valid (it : Item) : Prop :=
  name it <> None /\ price it <> None /\ in_stock it <> None.

Definition Item_validb (it : Item) : bool :=
  match name it, price it, in_stock it with
  | Some _, Some _, Some _ => true
  | _, _, _ => false
  end.

(** [ItemCreate(ItemBase)]: a validated creation request. *)
Record ItemCreate : Type := mkItemCreate {
  c_name : string;
  c_description : option string;
  c_price : float;
  c_in_stock : bool
}.

(** Building an [ItemCreate] from a request body: [name] and [price] are
    required, [description] defaults to [None] and [in_stock] to [True].  An
    omitted field is [None] here; a [description] sent as null is [Some None]. *)
Definition ItemCreate_init
    (name : string) (description : option (option string))
    (price : float) (in_stock : option bool) : ItemCreate :=
  {| c_name := name;
     c_description := match description with Some d => d | None => None end;
     c_price := price;
     c_in_stock := match in_stock with Some b => b | None => true end |}.

(** [ItemUpdate]: every field is optional and may be null.  The outer option
    says whether the request set the field at all (pydantic's fields-set); the
    inner one is the value it was set to, [None] for null. *)
Record ItemUpdate : Type := mkItemUpdate {
  u_name : option (option string);
  u_description : option (option string);
  u_price : option (option float);
  u_in_stock : option (option bool)
}.

(** One entry of the dictionary that [item_update.dict(exclude_unset=True)]
    returns: a field name with its value. *)
Inductive assignment : Type :=
| SetName (value : option string)
| SetDescription (value : option string)
| SetPrice (value : option float)
| SetInStock (value : option bool).

Definition opt_entry {T} (mk : T -> assignment) (o : option T) : list assignment :=
  match o with Some v => [mk v] | None => [] end.

(** [item_update.dict(exclude_unset=True)]: the fields the request set, in the
    order the class declares them. *)
Definition dict_exclude_unset (u : ItemUpdate) : list assignment :=
  opt_entry SetName (u_name u) ++
  opt_entry SetDescription (u_description u) ++
  opt_entry SetPrice (u_price u) ++
  opt_entry SetInStock (u_in_stock u).

(** [setattr(obj, field, value)]. *)
Definition setattr (obj : Item) (a : assignment) : Item :=
  match a with
  | SetName v => mkItem (id obj) v (description obj) (price obj) (in_stock obj)
  | SetDescription v => mkItem (id obj) (name obj) v (price obj) (in_stock obj)
  | SetPrice v => mkItem (id obj) (name obj) (description obj) v (in_stock obj)
  | SetInStock v => mkItem (id obj) (name obj) (description obj) (price obj) v
  end.

(** ** Handlers: computations over [items_db] that may raise *)

Inductive exn : Type :=
| HTTPException (status_code : Z) (detail : string)
| KeyError (key : string)
| AttributeError (attribute : string).

Inductive outcome (A : Type) : Type :=
| Return (a : A)
| Raise (e : exn).

Arguments Return {A} a.
Arguments Raise {A} e.

(** The module-level dictionary. *)
Definition store := dict Item.

(** [items_db = {}]. *)
Definition items_db : store := [].

Definition handler (A : Type) : Type := store -> outcome A * store.

Definition ret {A} (a : A) : handler A := fun db => (Return a, db).

Definition raise {A} (e : exn) : handler A := fun db => (Raise e, db).

Definition bind {A B} (m : handler A) (k : A -> handler B) : handler B :=
  fun db =>
    match m db with
    | (Return a, db') => k a db'
    | (Raise e, db') => (Raise e, db')
    end.

Notation "x <- m ;; k" := (bind m (fun x => k))
  (at level 61, m at next level, right associativity).
Notation "m ;; k" := (bind m (fun _ => k))
  (at level 61, right associativity).

(** [item_id in items_db]. *)
Definition contains (item_id : string) : handler bool :=
  fun db => (Return (dict_contains item_id db), db).

(** [items_db[item_id]]. *)
Definition getitem (item_id : string) : handler Item :=
  fun db =>
    match dict_get item_id db with
    | Some it => (Return it, db)
    | None => (Raise (KeyError item_id), db)
    end.

(** [items_db[item_id] = it]. *)
Definition setitem (item_id : string) (it : Item) : handler unit :=
  fun db => (Return tt, dict_setitem item_id it db).

(** [del items_db[item_id]]. *)
Definition delitem (item_id : string) : handler unit :=
  fun db =>
    if dict_contains item_id db
    then (Return tt, dict_delitem item_id db)
    else (Raise (KeyError item_id), db).

(** [list(items_db.values())]. *)
Definition values : handler (list Item) :=
  fun db => (Return (dict_values db), db).

(** [for x in l: body(x)]. *)
Fixpoint for_each {A} (l : list A) (body : A -> handler unit) : handler unit :=
  match l with
  | [] => ret tt
  | x :: l' => body x ;; for_each l' body
  end.

(** The error every handler raises for an unknown id. *)
Definition NotFoundError : exn := HTTPException 404 "Item not found".

(** ** The route handlers *)

(** [GET /]. *)
Definition read_root : handler string :=
  ret "Welcome to the Basic CRUD API".

(** [POST /items/].  [uuid4] is the string that [str(uuid.uuid4())] produced
    for this request: the draw is an input of the embedding.  The handler does
    not compare it with the keys of [items_db]. *)
Definition create_item (uuid4 : string) (item : ItemCreate) : handler Item :=
  let item_id := uuid4 in
  let new_item :=
    mkItem item_id (Some (c_name item)) (c_description item)
           (Some (c_price item)) (Some (c_in_stock item)) in
  setitem item_id new_item ;;
  ret new_item.

(** [GET /items/]. *)
Definition read_items (skip limit : Z) : handler (list Item) :=
  items <- values ;;
  ret (slice items skip (skip + limit)).

(** [GET /items/{item_id}]. *)
Definition read_item (item_id : string) : handler Item :=
  present <- contains item_id ;;
  if negb present then raise NotFoundError
  else getitem item_id.

(** One turn of the loop of [update_item].  [stored_item] is the object that
    [items_db] holds under [item_id], not a copy of it: assigning to one of its
    attributes changes the dictionary's value at once. *)
Definition setattr_stored (item_id : string) (a : assignment) : handler unit :=
  stored_item <- getitem item_id ;;
  setitem item_id (setattr stored_item a).

(** [PUT /items/{item_id}]. *)
Definition update_item (item_id : string) (item_update : ItemUpdate)
  : handler Item :=
  present <- contains item_id ;;
  if negb present then raise NotFoundError
  else
    let update_data := dict_exclude_unset item_update in
    for_each update_data (setattr_stored item_id) ;;
    stored_item <- getitem item_id ;;
    setitem item_id stored_item ;;
    ret stored_item.

(** [DELETE /items/{item_id}]. *)
Definition delete_item (item_id : string) : handler string :=
  present <- contains item_id ;;
  if negb present then raise NotFoundError
  else
    delitem item_id ;;
    ret "Item deleted successfully".

(** The test of the loop of [search_items] for one item.  [item.name.lower()]
    raises when [name] is [None]; [or] and [and] evaluate left to right and stop
    early, and a [description] that is [None] or empty counts as false. *)
Definition search_test (q : string) (item : Item) : outcome bool :=
  match name item with
  | None => Raise (AttributeError "lower")
  | Some n =>
      if Str.contains (Str.lower q) (Str.lower n) then Return true
      else
        match description item with
        | None => Return false
        | Some d =>
            Return (Str.truthy (Some d) &&
                    Str.contains (Str.lower q) (Str.lower d))
        end
  end.

(** The loop of [search_items] over the values still to visit, [results] being
    the list built so far. *)
Fixpoint search_loop (q : string) (todo results : list Item)
  : outcome (list Item) :=
  match todo with
  | [] => Return results
  | item :: todo' =>
      match search_test q item with
      | Raise e => Raise e
      | Return true => search_loop q todo' (results ++ [item])
      | Return false => search_loop q todo' results
      end
  end.

(** [GET /items/search/]. *)
Definition search_items (q : string) : handler (list Item) :=
  items <- values ;;
  fun db => (search_loop q items [], db).

(** [GET /health]: the status and [len(items_db)]. *)
Definition health_check : handler (string * Z) :=
  fun db => (Return ("healthy", dict_len db), db).

(** ** Stores the program can be in *)

(** The stores that a sequence of create, update and delete requests leads to
    from the empty dictionary the module starts with. *)
Inductive reachable : store -> Prop :=
| reach_init : reachable items_db
| reach_create uuid4 item db :
    reachable db -> reachable (snd (create_item uuid4 item db))
| reach_update item_id item_update db :
    reachable db -> reachable (snd (update_item item_id item_update db))
| reach_delete item_id db :
    reachable db -> reachable (snd (delete_item item_id db)).

(** Every stored item has a string for a name, as [ItemBase] annotates. *)
Definition names_present (db : store) : Prop :=
  forall it, In it (dict_values db) -> name it <> None.

(** What the specification says [search] matches: the lowered query occurs in
    the lowered name, or there is a description and it occurs in the lowered
    description. *)
Definition search_matches (q : string) (it : Item) : Prop :=
  (exists n, name it = Some n /\ Str.Substring (Str.lower q) (Str.lower n)) \/
  (exists d, description it = Some d /\
             Str.Substring (Str.lower q) (Str.lower d)).

(** ** Sample data *)

Definition bolt_request : ItemCreate :=
  ItemCreate_init "Bolt" None 1.5%float None.

Definition bolt : Item :=
  mkItem "id-1" (Some "Bolt") None (Some 1.5%float) (Some true).

Definition widget : Item :=
  mkItem "id-2" (Some "widget-1") (Some "A small part") (Some 2%float)
         (Some false).

Definition one_item : store := [("id-1", bolt)].

Definition two_items : store := [("id-1", bolt); ("id-2", widget)].

(** [{"price": 2.0}]. *)
Definition price_only : ItemUpdate :=
  mkItemUpdate None None (Some (Some 2%float)) None.

(** [{"name": null}]. *)
Definition name_null : ItemUpdate :=
  mkItemUpdate (Some None) None None None.

(** A hundred items, created one after the other by [create_item]. *)
Definition numbered_id (n : nat) : string :=
  "id-" ++ NilZero.string_of_uint (Nat.to_uint n).

Definition hundred_items : store :=
  fold_left
    (fun db n => snd (create_item (numbered_id n) bolt_request db))
    (seq 0 100) items_db.

(** An item whose name is the empty string. *)
Definition unnamed : Item :=
  mkItem "id-3" (Some EmptyString) (Some EmptyString) (Some 0%float)
         (Some true).

Definition three_items : store :=
  [("id-1", bolt); ("id-2", widget); ("id-3", unnamed)].

(** ** Predicates on stores and requests *)

(** Every stored item satisfies the annotations of [ItemBase]. *)
Definition store_valid (db : store) : Prop :=
  forall it, In it (dict_values db) -> Item_valid it.

(** An update request that sets none of [name], [price], [in_stock] to null. *)
Definition update_nonnull (u : ItemUpdate) : Prop :=
  u_name u <> Some None /\ u_price u <> Some None /\
  u_in_stock u <> Some None.

(** Whether the loop of [search_items] keeps an item, when its test returns. *)
Definition search_keep (q : string) (it : Item) : bool :=
  match search_test q it with
  | Return b => b
  | Raise _ => false
  end.

(** ** Requests and stores used by the further properties *)

(** [read_items()] with the defaults of its signature, [skip = 0] and
    [limit = 100]. *)
Definition read_items_default : handler (list Item) := read_items 0 100.

(** The body [{}]: an [ItemUpdate] that sets no field. *)
Definition empty_update : ItemUpdate := mkItemUpdate None None None None.

(** [{"name": "Nut", "in_stock": false}]. *)
Definition rename_update : ItemUpdate :=
  mkItemUpdate (Some (Some "Nut")) None None (Some (Some false)).

(** One request body that has the effect of [u1] followed by [u2]: a field
    that [u2] sets has the value [u2] gives it, any other is as in [u1]. *)
Definition merge_update (u1 u2 : ItemUpdate) : ItemUpdate :=
  let later {T} (a b : option T) := match b with Some _ => b | None => a end in
  mkItemUpdate
    (later (u_name u1) (u_name u2))
    (later (u_description u1) (u_description u2))
    (later (u_price u1) (u_price u2))
    (later (u_in_stock u1) (u_in_stock u2)).

(** The stores reached when no update request sets [name], [price] or
    [in_stock] to null. *)
Inductive reachable_nonnull : store -> Prop :=
| reachn_init : reachable_nonnull items_db
| reachn_create uuid4 item db :
    reachable_nonnull db ->
    reachable_nonnull (snd (create_item uuid4 item db))
| reachn_update item_id item_update db :
    update_nonnull item_update ->
    reachable_nonnull db ->
    reachable_nonnull (snd (update_item item_id item_update db))
| reachn_delete item_id db :
    reachable_nonnull db ->
    reachable_nonnull (snd (delete_item item_id db)).

(** ** Requests and stores around a null name and a repeated identifier *)

(** [{"name": "widget-1", "description": "A small part", "price": 2.0,
    "in_stock": false}]. *)
Definition widget_request : ItemCreate :=
  ItemCreate_init "widget-1" (Some (Some "A small part")) 2%float (Some false).

(** [two_items] after [PUT /items/id-1] with the body [{"name": null}]. *)
Definition two_items_name_null : store :=
  snd (update_item "id-1" name_null two_items).

(** [one_item] after [PUT /items/id-1] with the body [{"name": null}]. *)
Definition one_item_name_null : store :=
  snd (update_item "id-1" name_null one_item).




(** * Properties *)

(** ** Dictionaries *)

Section DictFacts.

Context {V : Type}.
Implicit Types (k : string) (v : V) (d : dict V).

Lemma dict_get_setitem_eq k v d :
  dict_get k (dict_setitem k v d) = Some v.
Proof.
  induction d as [|[k' v'] d IH]; simpl.
  - now rewrite String.eqb_refl.
  - destruct (String.eqb k k') eqn:E; simpl; rewrite ?String.eqb_refl, ?E; auto.
Qed.

Lemma dict_get_setitem_neq k k' v d :
  k <> k' -> dict_get k' (dict_setitem k v d) = dict_get k' d.
Proof.
  intros Hne. induction d as [|[k1 v1] d IH]; simpl.
  - destruct (String.eqb_spec k' k); congruence.
  - destruct (String.eqb_spec k k1) as [->|]; simpl.
    + destruct (String.eqb_spec k' k1); congruence.
    + now rewrite IH.
Qed.

Lemma dict_setitem_same k v d :
  dict_get k d = Some v -> dict_setitem k v d = d.
Proof.
  induction d as [|[k' v'] d IH]; simpl; [discriminate|].
  destruct (String.eqb_spec k k') as [->|]; intros H.
  - congruence.
  - now rewrite IH.
Qed.

Lemma dict_setitem_twice k v w d :
  dict_setitem k v (dict_setitem k w d) = dict_setitem k v d.
Proof.
  induction d as [|[k' v'] d IH]; simpl.
  - now rewrite String.eqb_refl.
  - destruct (String.eqb k k') eqn:E; simpl; rewrite ?String.eqb_refl, ?E; auto.
    now rewrite IH.
Qed.

Lemma dict_get_None_keys k d :
  dict_get k d = None <-> ~ In k (dict_keys d).
Proof.
  induction d as [|[k' v'] d IH]; simpl.
  - tauto.
  - destruct (String.eqb_spec k k') as [->|Hne].
    + split; [discriminate | intros H; exfalso; auto].
    + rewrite IH. split; [intros H [E|I]; auto | tauto].
Qed.

Lemma dict_get_In k v d : dict_get k d = Some v -> In v (dict_values d).
Proof.
  induction d as [|[k' v'] d IH]; simpl; [discriminate|].
  destruct (String.eqb k k'); intros H; [left; congruence | right; auto].
Qed.

(** Assigning to an existing key leaves the order of the keys alone. *)
Lemma dict_keys_setitem_present k v w d :
  dict_get k d = Some w -> dict_keys (dict_setitem k v d) = dict_keys d.
Proof.
  induction d as [|[k' v'] d IH]; simpl; [discriminate|].
  destruct (String.eqb_spec k k') as [->|]; simpl; intros H; auto.
  now rewrite IH.
Qed.

(** Assigning to a new key appends it. *)
Lemma dict_setitem_fresh k v d :
  dict_get k d = None -> dict_setitem k v d = d ++ [(k, v)].
Proof.
  induction d as [|[k' v'] d IH]; simpl; auto.
  destruct (String.eqb k k'); [discriminate|].
  intros H. now rewrite IH.
Qed.

Lemma dict_get_delitem_eq k d : dict_get k (dict_delitem k d) = None.
Proof.
  induction d as [|[k' v'] d IH]; simpl; auto.
  destruct (String.eqb k k') eqn:E; simpl; auto. now rewrite E.
Qed.

Lemma dict_get_delitem_neq k k' d :
  k <> k' -> dict_get k' (dict_delitem k d) = dict_get k' d.
Proof.
  intros Hne. induction d as [|[k1 v1] d IH]; simpl; auto.
  destruct (String.eqb_spec k k1) as [->|]; simpl.
  - destruct (String.eqb_spec k' k1); congruence.
  - now rewrite IH.
Qed.

Lemma dict_keys_delitem k d :
  dict_keys (dict_delitem k d) =
  filter (fun k' => negb (String.eqb k k')) (dict_keys d).
Proof.
  induction d as [|[k' v'] d IH]; simpl; auto.
  destruct (String.eqb k k'); simpl; now rewrite IH.
Qed.

(** The three dictionary operations keep the keys distinct. *)
Lemma dict_wf_setitem k v d : dict_wf d -> dict_wf (dict_setitem k v d).
Proof.
  unfold dict_wf. intros Hwf.
  destruct (dict_get k d) as [w|] eqn:E.
  - now rewrite (dict_keys_setitem_present _ _ _ _ E).
  - rewrite (dict_setitem_fresh _ _ _ E). unfold dict_keys.
    rewrite map_app. simpl.
    apply NoDup_app_remove_l with (l := nil).
    simpl. apply NoDup_rev in Hwf.
    rewrite <- (rev_involutive (map fst d ++ [k])).
    apply NoDup_rev. rewrite rev_app_distr. simpl.
    constructor; auto.
    rewrite <- in_rev. now apply dict_get_None_keys.
Qed.

Lemma dict_wf_delitem k d : dict_wf d -> dict_wf (dict_delitem k d).
Proof.
  unfold dict_wf. rewrite dict_keys_delitem. apply NoDup_filter.
Qed.

End DictFacts.

(** ** Strings *)

Module StrFacts.
Import Str.

Lemma startswith_spec p s :
  startswith p s = true <-> exists post, s = (p ++ post)%string.
Proof.
  revert s. induction p as [|a p IH]; intros s; simpl.
  - split; [intros _; now exists s | reflexivity].
  - destruct s as [|b s].
    + split; [discriminate | intros [post H]; discriminate].
    + rewrite andb_true_iff, IH. split.
      * intros [Hab [post ->]]. apply Ascii.eqb_eq in Hab. subst b.
        now exists post.
      * intros [post H]. injection H as -> ->. split.
        -- apply Ascii.eqb_refl.
        -- now exists post.
Qed.

(** The scan decides the substring relation. *)
Lemma contains_spec q s : contains q s = true <-> Substring q s.
Proof.
  unfold Substring. induction s as [|c s IH].
  - simpl. rewrite orb_false_r, startswith_spec. split.
    + intros [post H]. now exists EmptyString, post.
    + intros [pre [post H]]. destruct pre; [|discriminate].
      now exists post.
  - cbn [contains]. rewrite orb_true_iff, startswith_spec, IH. split.
    + intros [[post H] | [pre [post H]]].
      * now exists EmptyString, post.
      * exists (String c pre), post. simpl. now rewrite H.
    + intros [pre [post H]]. destruct pre as [|c' pre]; simpl in H.
      * left. now exists post.
      * right. injection H as _ H. now exists pre, post.
Qed.

Lemma contains_empty s : contains EmptyString s = true.
Proof. destruct s; reflexivity. Qed.

Lemma Substring_empty s : Substring EmptyString s.
Proof. apply contains_spec, contains_empty. Qed.

(** Only the empty string occurs in the empty string. *)
Lemma contains_in_empty q : contains q EmptyString = true -> q = EmptyString.
Proof. destruct q; simpl; [reflexivity | discriminate]. Qed.

Lemma lower_length s : String.length (lower s) = String.length s.
Proof. induction s; simpl; congruence. Qed.

Lemma lower_empty s : lower s = EmptyString <-> s = EmptyString.
Proof. destruct s; simpl; split; intros H; try reflexivity; discriminate. Qed.

(** Lowering twice is lowering once. *)
Lemma lower_ascii_idem c : lower_ascii (lower_ascii c) = lower_ascii c.
Proof.
  destruct c as [[] [] [] [] [] [] [] []]; reflexivity.
Qed.

Lemma lower_idem s : lower (lower s) = lower s.
Proof. induction s; simpl; [reflexivity | now rewrite lower_ascii_idem, IHs]. Qed.

End StrFacts.

(** ** The handlers, step by step *)

Section HandlerFacts.

Implicit Types (db : store) (item_id : string) (it : Item).

Lemma dict_contains_true item_id db :
  dict_contains item_id db = true <-> dict_get item_id db <> None.
Proof.
  unfold dict_contains. destruct (dict_get item_id db); split; congruence.
Qed.

Lemma dict_contains_false item_id db :
  dict_contains item_id db = false <-> dict_get item_id db = None.
Proof.
  unfold dict_contains. destruct (dict_get item_id db); split; congruence.
Qed.

(** What each handler does when the id is not a key. *)
Lemma read_item_absent item_id db :
  dict_get item_id db = None ->
  read_item item_id db = (Raise NotFoundError, db).
Proof.
  intros H. unfold read_item, bind, contains, dict_contains.
  now rewrite H.
Qed.

Lemma update_item_absent item_id u db :
  dict_get item_id db = None ->
  update_item item_id u db = (Raise NotFoundError, db).
Proof.
  intros H. unfold update_item, bind, contains, dict_contains.
  now rewrite H.
Qed.

Lemma delete_item_absent item_id db :
  dict_get item_id db = None ->
  delete_item item_id db = (Raise NotFoundError, db).
Proof.
  intros H. unfold delete_item, bind, contains, dict_contains.
  now rewrite H.
Qed.

(** What each handler does when the id is a key. *)
Lemma read_item_present item_id it db :
  dict_get item_id db = Some it ->
  read_item item_id db = (Return it, db).
Proof.
  intros H. unfold read_item, bind, contains, getitem, dict_contains.
  now rewrite H; simpl; rewrite H.
Qed.

Lemma delete_item_present item_id it db :
  dict_get item_id db = Some it ->
  delete_item item_id db =
  (Return "Item deleted successfully", dict_delitem item_id db).
Proof.
  intros H. unfold delete_item, bind, contains, delitem, dict_contains.
  now rewrite H; simpl; rewrite H.
Qed.

(** The loop of [update_item] amounts to one assignment of the item with all
    the attributes set. *)
Lemma for_each_setattr_stored item_id (l : list assignment) : forall it db,
  dict_get item_id db = Some it ->
  for_each l (setattr_stored item_id) db =
  (Return tt, dict_setitem item_id (fold_left setattr l it) db).
Proof.
  induction l as [|a l IH]; intros it db H; simpl.
  - unfold ret. now rewrite dict_setitem_same.
  - unfold bind at 1. unfold setattr_stored, bind, getitem, setitem.
    rewrite H.
    rewrite (IH (setattr it a)) by apply dict_get_setitem_eq.
    now rewrite dict_setitem_twice.
Qed.

Lemma update_item_present item_id u it db :
  dict_get item_id db = Some it ->
  update_item item_id u db =
  (Return (fold_left setattr (dict_exclude_unset u) it),
   dict_setitem item_id (fold_left setattr (dict_exclude_unset u) it) db).
Proof.
  intros H. unfold update_item, bind at 1, contains, dict_contains.
  rewrite H. change (negb true) with false. cbv iota.
  unfold bind at 1. rewrite (for_each_setattr_stored _ _ _ _ H).
  unfold bind, getitem, setitem, ret.
  rewrite dict_get_setitem_eq. now rewrite dict_setitem_twice.
Qed.

Lemma create_item_run uuid4 item db :
  create_item uuid4 item db =
  (Return (mkItem uuid4 (Some (c_name item)) (c_description item)
                  (Some (c_price item)) (Some (c_in_stock item))),
   dict_setitem uuid4
     (mkItem uuid4 (Some (c_name item)) (c_description item)
             (Some (c_price item)) (Some (c_in_stock item))) db).
Proof. reflexivity. Qed.

(** The attributes of an item after the assignments of an update. *)
Lemma fold_setattr_fields u it :
  let it' := fold_left setattr (dict_exclude_unset u) it in
  id it' = id it /\
  name it' = match u_name u with Some v => v | None => name it end /\
  description it' =
    match u_description u with Some v => v | None => description it end /\
  price it' = match u_price u with Some v => v | None => price it end /\
  in_stock it' =
    match u_in_stock u with Some v => v | None => in_stock it end.
Proof.
  destruct u as [[n|] [d|] [p|] [s|]]; destruct it; cbn; repeat split.
Qed.

End HandlerFacts.

(** ** Update *)

(** C1: when [item_id] is a key of the store, [update_item] returns the item
    now stored under [item_id]; each attribute of that item is the value the
    request set it to when the request set it, and the value it had before
    otherwise; its [id] is the old one ([ItemUpdate] has no [id] field, so an
    [id] in the body never reaches the handler); every other entry and the
    order of the keys are as before. *)
Theorem update_item_partial item_id (item_update : ItemUpdate)
    (old : Item) (db : store) :
  dict_get item_id db = Some old ->
  exists new db',
    update_item item_id item_update db = (Return new, db') /\
    dict_get item_id db' = Some new /\
    id new = id old /\
    name new =
      match u_name item_update with Some v => v | None => name old end /\
    description new =
      match u_description item_update with
      | Some v => v | None => description old end /\
    price new =
      match u_price item_update with Some v => v | None => price old end /\
    in_stock new =
      match u_in_stock item_update with
      | Some v => v | None => in_stock old end /\
    (forall k, k <> item_id -> dict_get k db' = dict_get k db) /\
    dict_keys db' = dict_keys db.
Proof.
  intros H.
  pose proof (fold_setattr_fields item_update old) as F. cbv zeta in F.
  destruct F as (Fid & Fn & Fd & Fp & Fs).
  eexists. eexists. split; [apply (update_item_present _ _ _ _ H)|].
  split; [apply dict_get_setitem_eq|].
  repeat (split; [assumption|]).
  split.
  - intros k Hk. apply dict_get_setitem_neq. congruence.
  - apply (dict_keys_setitem_present _ _ _ _ H).
Qed.

Lemma update_item_partial_witness :
  dict_get "id-1" two_items = Some bolt /\
  exists new db',
    update_item "id-1" price_only two_items = (Return new, db') /\
    dict_get "id-1" db' = Some new /\
    id new = id bolt /\
    name new = name bolt /\
    description new = description bolt /\
    price new = Some 2%float /\
    in_stock new = in_stock bolt /\
    (forall k, k <> "id-1" -> dict_get k db' = dict_get k two_items) /\
    dict_keys db' = dict_keys two_items.
Proof.
  split; [reflexivity|].
  apply (update_item_partial "id-1" price_only bolt two_items).
  reflexivity.
Defined.

(** ** Create, then read *)

(** C2: [create_item] returns an item, and [read_item] on the [id] of that item
    in the store that [create_item] left returns the same item, attribute by
    attribute. *)
Theorem create_then_read uuid4 (item : ItemCreate) (db : store) :
  exists new db' got,
    create_item uuid4 item db = (Return new, db') /\
    read_item (id new) db' = (Return got, db') /\
    id got = id new /\ name got = name new /\
    description got = description new /\
    price got = price new /\ in_stock got = in_stock new /\
    got = new.
Proof.
  rewrite create_item_run. do 3 eexists.
  split; [reflexivity|]. split.
  - apply read_item_present. cbn [id]. apply dict_get_setitem_eq.
  - repeat split.
Qed.

(** ** Unknown ids *)

(** C4: each of [read_item], [update_item] and [delete_item] raises the 404
    error exactly when the id is not a key, and returns exactly when it is; a
    [delete_item] that returned is followed by a [delete_item] of the same id
    that raises the 404 error. *)
Theorem not_found_iff_absent item_id (item_update : ItemUpdate) (db : store) :
  (fst (read_item item_id db) = Raise NotFoundError
   <-> dict_get item_id db = None) /\
  (fst (update_item item_id item_update db) = Raise NotFoundError
   <-> dict_get item_id db = None) /\
  (fst (delete_item item_id db) = Raise NotFoundError
   <-> dict_get item_id db = None) /\
  ((exists it, fst (read_item item_id db) = Return it)
   <-> dict_get item_id db <> None) /\
  ((exists it, fst (update_item item_id item_update db) = Return it)
   <-> dict_get item_id db <> None) /\
  ((exists msg, fst (delete_item item_id db) = Return msg)
   <-> dict_get item_id db <> None) /\
  (forall msg db',
     delete_item item_id db = (Return msg, db') ->
     delete_item item_id db' = (Raise NotFoundError, db')).
Proof.
  destruct (dict_get item_id db) as [it|] eqn:E.
  - rewrite (read_item_present _ _ _ E), (update_item_present _ _ _ _ E),
      (delete_item_present _ _ _ E). cbn [fst].
    repeat split; try discriminate; try congruence; try (intros _; eauto).
    intros msg db' H. injection H as _ <-.
    apply delete_item_absent, dict_get_delitem_eq.
  - rewrite (read_item_absent _ _ E), (update_item_absent _ _ _ E),
      (delete_item_absent _ _ E). cbn [fst].
    repeat split; try discriminate; try congruence;
      try (intros [? ?]; discriminate).
Qed.

(** C5: a [read_item], [update_item] or [delete_item] that raises leaves the
    store it was given: the same entries, with the same items, in the same
    order. *)
Theorem failed_request_keeps_store item_id (item_update : ItemUpdate)
    (db : store) (e : exn) :
  (fst (read_item item_id db) = Raise e ->
   snd (read_item item_id db) = db) /\
  (fst (update_item item_id item_update db) = Raise e ->
   snd (update_item item_id item_update db) = db) /\
  (fst (delete_item item_id db) = Raise e ->
   snd (delete_item item_id db) = db).
Proof.
  destruct (dict_get item_id db) as [it|] eqn:E.
  - rewrite (read_item_present _ _ _ E), (update_item_present _ _ _ _ E),
      (delete_item_present _ _ _ E). cbn [fst].
    repeat split; discriminate.
  - rewrite (read_item_absent _ _ E), (update_item_absent _ _ _ E),
      (delete_item_absent _ _ E).
    repeat split.
Qed.

(** ** Slices *)

Section SliceFacts.

Context {A : Type}.
Implicit Types (l : list A) (i n : Z).

Lemma slice_bound_range i n :
  (0 <= n)%Z -> (0 <= slice_bound i n <= n)%Z.
Proof.
  intros Hn. unfold slice_bound.
  destruct (Z.ltb_spec i 0); [destruct (Z.ltb_spec (i + n) 0) |
                              destruct (Z.ltb_spec n i)]; lia.
Qed.

Lemma slice_bound_nonneg i n :
  (0 <= i)%Z -> slice_bound i n = Z.min i n.
Proof.
  intros Hi. unfold slice_bound.
  destruct (Z.ltb_spec i 0); [lia|]. destruct (Z.ltb_spec n i); lia.
Qed.

Lemma slice_bound_neg i n :
  (i < 0)%Z -> slice_bound i n = Z.max 0 (i + n).
Proof.
  intros Hi. unfold slice_bound.
  destruct (Z.ltb_spec i 0); [|lia]. destruct (Z.ltb_spec (i + n) 0); lia.
Qed.

(** With bounds that are not negative a slice is "drop, then take". *)
Lemma slice_nonneg l (skip limit : Z) :
  (0 <= skip)%Z -> (0 <= limit)%Z ->
  slice l skip (skip + limit) =
  firstn (Z.to_nat limit) (skipn (Z.to_nat skip) l).
Proof.
  intros Hs Hl. unfold slice.
  rewrite !slice_bound_nonneg by lia.
  set (n := Z.of_nat (length l)).
  assert (Hn : length l = Z.to_nat n) by (subst n; lia).
  destruct (Z.ltb_spec (Z.min skip n) (Z.min (skip + limit) n)) as [Hlt|Hge].
  - assert (skip < n)%Z by lia.
    replace (Z.to_nat (Z.min skip n)) with (Z.to_nat skip) by lia.
    destruct (Z.le_gt_cases (skip + limit) n).
    + f_equal. lia.
    + rewrite !firstn_all2; auto; rewrite length_skipn; lia.
  - destruct (Z.le_gt_cases n skip).
    + rewrite skipn_all2 by lia. now rewrite firstn_nil.
    + assert (limit = 0)%Z by lia. subst limit. reflexivity.
Qed.

(** [l[0:-1]] is [l] without its last element. *)
Lemma slice_all_but_last pre (x : A) :
  slice (pre ++ [x]) 0 (0 + -1) = pre.
Proof.
  unfold slice. rewrite length_app. cbn [length].
  rewrite slice_bound_nonneg, slice_bound_neg by lia.
  destruct (Z.ltb_spec (Z.min 0 (Z.of_nat (length pre + 1)))
                       (Z.max 0 (0 + -1 + Z.of_nat (length pre + 1)))).
  - replace (Z.to_nat _) with (length pre + 0)%nat by lia.
    cbn [skipn Z.to_nat]. rewrite Z.min_l by lia. cbn [Z.to_nat skipn].
    rewrite firstn_app_2. cbn. now rewrite app_nil_r.
  - destruct pre; [reflexivity | cbn [length] in *; lia].
Qed.

Lemma slice_nil (start stop : Z) : slice (@nil A) start stop = [].
Proof.
  unfold slice. cbn [length Z.of_nat].
  pose proof (slice_bound_range start 0). pose proof (slice_bound_range stop 0).
  destruct (Z.ltb_spec (slice_bound start 0) (slice_bound stop 0)); [lia|].
  reflexivity.
Qed.

(** [l[-1:99]] on a list with a last element: that element alone when the
    list has at most 99 elements, nothing when it has more. *)
Lemma slice_last_short pre (x : A) :
  (length pre < 99)%nat -> slice (pre ++ [x]) (-1) (-1 + 100) = [x].
Proof.
  intros Hlen. unfold slice. rewrite length_app. cbn [length].
  rewrite slice_bound_neg, slice_bound_nonneg by lia.
  destruct (Z.ltb_spec (Z.max 0 (-1 + Z.of_nat (length pre + 1)))
                       (Z.min (-1 + 100) (Z.of_nat (length pre + 1)))); [|lia].
  replace (Z.to_nat (Z.max _ _)) with (length pre) by lia.
  replace (Z.to_nat (_ - _)) with 1%nat by lia.
  rewrite skipn_app, skipn_all, Nat.sub_diag. reflexivity.
Qed.

Lemma slice_last_long pre (x : A) :
  (99 <= length pre)%nat -> slice (pre ++ [x]) (-1) (-1 + 100) = [].
Proof.
  intros Hlen. unfold slice. rewrite length_app. cbn [length].
  rewrite slice_bound_neg, slice_bound_nonneg by lia.
  destruct (Z.ltb_spec (Z.max 0 (-1 + Z.of_nat (length pre + 1)))
                       (Z.min (-1 + 100) (Z.of_nat (length pre + 1)))); [lia|].
  reflexivity.
Qed.

End SliceFacts.

(** ** Listing *)

Lemma read_items_run skip limit (db : store) :
  read_items skip limit db =
  (Return (slice (dict_values db) skip (skip + limit)), db).
Proof. reflexivity. Qed.

(** C6: with [skip] and [limit] not negative, [read_items] returns the stored
    items from position [skip] on, in the order of the dictionary, [limit] of
    them at most; it returns the empty list when [skip] is at least the number
    of entries, and it leaves the store as it was. *)
Theorem read_items_window skip limit (db : store) :
  (0 <= skip)%Z -> (0 <= limit)%Z ->
  exists r,
    read_items skip limit db = (Return r, db) /\
    r = firstn (Z.to_nat limit) (skipn (Z.to_nat skip) (dict_values db)) /\
    (forall k, (k < Z.to_nat limit)%nat ->
       nth_error r k = nth_error (dict_values db) (Z.to_nat skip + k)) /\
    (Z.of_nat (length r) <= limit)%Z /\
    ((dict_len db <= skip)%Z -> r = []).
Proof.
  intros Hs Hl. rewrite read_items_run, slice_nonneg by assumption.
  eexists. split; [reflexivity|]. split; [reflexivity|].
  split; [|split].
  - intros k Hk. rewrite nth_error_firstn.
    destruct (Nat.ltb_spec k (Z.to_nat limit)); [|lia].
    apply nth_error_skipn.
  - pose proof (firstn_le_length (Z.to_nat limit)
                  (skipn (Z.to_nat skip) (dict_values db))). lia.
  - unfold dict_len, dict_values. intros Hlen.
    rewrite skipn_all2 by (rewrite length_map; lia).
    apply firstn_nil.
Qed.

Lemma read_items_window_witness :
  (0 <= 1)%Z /\ (0 <= 10)%Z /\
  exists r,
    read_items 1 10 two_items = (Return r, two_items) /\
    r = firstn (Z.to_nat 10) (skipn (Z.to_nat 1) (dict_values two_items)) /\
    (forall k, (k < Z.to_nat 10)%nat ->
       nth_error r k = nth_error (dict_values two_items) (Z.to_nat 1 + k)) /\
    (Z.of_nat (length r) <= 10)%Z /\
    ((dict_len two_items <= 1)%Z -> r = []).
Proof.
  split; [lia|]. split; [lia|].
  apply (read_items_window 1 10 two_items); lia.
Defined.

(** The scenario of the specification: the second of two items. *)
Example read_items_second :
  read_items 1 10 two_items = (Return [widget], two_items).
Proof. reflexivity. Qed.

(** C10, as stated, fails twice.  On a store of one item [skip=0, limit=-1]
    gives the empty list, not a non-empty one; on a store of a hundred items
    [skip=-1, limit=100] gives the empty list, not the last item. *)
Lemma read_items_negative_counterexample :
  (dict_values one_item <> [] /\
   read_items 0 (-1) one_item = (Return [], one_item)) /\
  (dict_values hundred_items <> [] /\
   reachable hundred_items /\
   read_items (-1) 100 hundred_items = (Return [], hundred_items)).
Proof.
  split; [split; [discriminate | reflexivity]|].
  split; [discriminate|]. split.
  - unfold hundred_items.
    assert (G : forall l db, reachable db ->
              reachable (fold_left
                (fun db n => snd (create_item (numbered_id n) bolt_request db))
                l db)).
    { induction l as [|n l IH]; intros db Hdb; cbn [fold_left]; auto.
      apply IH. apply (reach_create _ _ _ Hdb). }
    apply G, reach_init.
  - vm_compute. reflexivity.
Qed.

(** C10, amended: [read_items] is the Python slice [items[skip:skip+limit]]
    whatever the signs of [skip] and [limit]: a negative bound counts from the
    end.  With [skip=0, limit=-1] it returns all items but the last, a list that
    is non-empty exactly when the store has two items or more.  With [skip=-1,
    limit=100] it returns the last item alone when the store has between 1 and
    99 items, and the empty list when it has 100 or more, or none. *)
Theorem read_items_negative (db : store) :
  (forall skip limit,
     read_items skip limit db =
     (Return (slice (dict_values db) skip (skip + limit)), db)) /\
  (forall start stop,
     slice (dict_values db) start stop =
     if (slice_bound start (dict_len db) <? slice_bound stop (dict_len db))%Z
     then firstn (Z.to_nat (slice_bound stop (dict_len db)
                            - slice_bound start (dict_len db)))
            (skipn (Z.to_nat (slice_bound start (dict_len db)))
               (dict_values db))
     else []) /\
  (forall i, (i < 0)%Z ->
     slice_bound i (dict_len db) = Z.max 0 (dict_len db + i)) /\
  (forall pre x, dict_values db = pre ++ [x] ->
     read_items 0 (-1) db = (Return pre, db) /\
     (pre <> [] <-> (2 <= dict_len db)%Z)) /\
  (forall pre x, dict_values db = pre ++ [x] ->
     ((dict_len db <= 99)%Z -> read_items (-1) 100 db = (Return [x], db)) /\
     ((100 <= dict_len db)%Z -> read_items (-1) 100 db = (Return [], db))) /\
  (dict_values db = [] ->
     read_items 0 (-1) db = (Return [], db) /\
     read_items (-1) 100 db = (Return [], db)).
Proof.
  assert (Hlen : dict_len db = Z.of_nat (length (dict_values db))).
  { unfold dict_len, dict_values. now rewrite length_map. }
  split; [reflexivity|]. split.
  { intros start stop. unfold slice. now rewrite Hlen. }
  split.
  { intros i Hi. rewrite slice_bound_neg by assumption. f_equal. lia. }
  split; [|split].
  - intros pre x E. rewrite read_items_run, E. split.
    + now rewrite slice_all_but_last.
    + rewrite Hlen, E, length_app. cbn [length].
      destruct pre; cbn [length]; split; intros H; try congruence; lia.
  - intros pre x E. rewrite !read_items_run, Hlen, E, length_app.
    cbn [length]. split; intros H.
    + rewrite slice_last_short by lia. reflexivity.
    + rewrite slice_last_long by lia. reflexivity.
  - intros E. rewrite !read_items_run, E, !slice_nil. split; reflexivity.
Qed.

(** ** Create *)



(** The scenario of the specification. *)
Example create_bolt :
  create_item "id-1" bolt_request items_db = (Return bolt, one_item).
Proof. reflexivity. Qed.

(** ** The annotations of [ItemBase] on stored items *)

Lemma In_values_setitem (k : string) (v w : Item) (d : store) :
  In w (dict_values (dict_setitem k v d)) -> w = v \/ In w (dict_values d).
Proof.
  induction d as [|[k' v'] d IH]; simpl.
  - intros [H|[]]. now left.
  - destruct (String.eqb k k'); simpl.
    + intros [H|H]; [now left | right; now right].
    + intros [H|H]; [right; now left |].
      destruct (IH H); [now left | right; now right].
Qed.

Lemma In_values_delitem (k : string) (w : Item) (d : store) :
  In w (dict_values (dict_delitem k d)) -> In w (dict_values d).
Proof.
  unfold dict_values, dict_delitem. rewrite !in_map_iff.
  intros [kv [E H]]. apply filter_In in H. exists kv. tauto.
Qed.

Lemma create_item_valid uuid4 item (db : store) :
  store_valid db -> store_valid (snd (create_item uuid4 item db)).
Proof.
  intros Hv it Hin. rewrite create_item_run in Hin. cbn [snd] in Hin.
  apply In_values_setitem in Hin. destruct Hin as [->|Hin]; auto.
  repeat split; discriminate.
Qed.

Lemma delete_item_valid item_id (db : store) :
  store_valid db -> store_valid (snd (delete_item item_id db)).
Proof.
  intros Hv. destruct (dict_get item_id db) as [old|] eqn:E.
  - rewrite (delete_item_present _ _ _ E). cbn [snd].
    intros it Hin. eauto using In_values_delitem.
  - now rewrite (delete_item_absent _ _ E).
Qed.

(** An update that sets no required field to null keeps the annotations. *)
Lemma update_item_valid item_id u (db : store) :
  update_nonnull u ->
  store_valid db -> store_valid (snd (update_item item_id u db)).
Proof.
  intros (Hn & Hp & Hs) Hv. destruct (dict_get item_id db) as [old|] eqn:E.
  - rewrite (update_item_present _ _ _ _ E). cbn [snd].
    intros it Hin. apply In_values_setitem in Hin.
    destruct Hin as [->|Hin]; auto.
    destruct (Hv old (dict_get_In _ _ _ E)) as (Vn & Vp & Vs).
    destruct (fold_setattr_fields u old) as (_ & Fn & _ & Fp & Fs).
    unfold Item_valid. rewrite Fn, Fp, Fs.
    destruct (u_name u) as [[?|]|]; destruct (u_price u) as [[?|]|];
      destruct (u_in_stock u) as [[?|]|]; repeat split; congruence.
  - now rewrite (update_item_absent _ _ _ E).
Qed.

(** C3 fails on the code: [{"name": null}] is an [ItemUpdate], its [name] is
    set, and [update_item] assigns it.  After creating the item of the
    specification's scenario and sending that update, the store holds an item
    whose name is [None]; it is a reachable store, the annotations of
    [ItemBase] do not hold in it, and [search_items] raises on it. *)
Theorem update_item_null_name :
  reachable (snd (update_item "id-1" name_null one_item)) /\
  update_item "id-1" name_null one_item =
    (Return (mkItem "id-1" None None (Some 1.5%float) (Some true)),
     [("id-1", mkItem "id-1" None None (Some 1.5%float) (Some true))]) /\
  ~ store_valid (snd (update_item "id-1" name_null one_item)) /\
  fst (search_items "bolt" (snd (update_item "id-1" name_null one_item))) =
    Raise (AttributeError "lower").
Proof.
  split.
  - apply reach_update.
    change one_item with (snd (create_item "id-1" bolt_request items_db)).
    apply reach_create, reach_init.
  - split; [reflexivity|]. split; [|reflexivity].
    intros Hv. destruct (Hv (mkItem "id-1" None None (Some 1.5%float) (Some true)))
      as (Hn & _).
    + left. reflexivity.
    + now apply Hn.
Qed.

(** ** Search *)

Section SearchFacts.

Import Str StrFacts.

(** With a name, the test returns, and what it returns is what the
    specification calls a match. *)
Lemma search_test_named q it n :
  name it = Some n -> search_test q it = Return (search_keep q it).
Proof.
  intros Hn. unfold search_keep, search_test. rewrite Hn.
  destruct (contains (lower q) (lower n)); [reflexivity|].
  destruct (description it); reflexivity.
Qed.

Lemma search_keep_spec q it n :
  name it = Some n -> (search_keep q it = true <-> search_matches q it).
Proof.
  intros Hn. unfold search_keep, search_test, search_matches. rewrite Hn.
  destruct (contains (lower q) (lower n)) eqn:Cn.
  - split; [intros _ | reflexivity].
    left. exists n. split; [reflexivity|]. now apply contains_spec.
  - assert (Nn : ~ Substring (lower q) (lower n)).
    { intros H. apply contains_spec in H. congruence. }
    destruct (description it) as [d|] eqn:Hd.
    + rewrite andb_true_iff. split.
      * intros [_ Cd]. right. exists d. split; [reflexivity|].
        now apply contains_spec.
      * intros [(n' & E & H) | (d' & E & H)].
        -- injection E as <-. contradiction.
        -- injection E as <-. apply contains_spec in H. split; [|exact H].
           destruct d as [|c d]; [|reflexivity].
           apply contains_in_empty in H. rewrite H, contains_empty in Cn.
           discriminate.
    + split; [discriminate|].
      intros [(n' & E & H) | (d' & E & H)]; [|discriminate].
      injection E as <-. contradiction.
Qed.

(** The loop appends, in the order it visits them, the items it keeps. *)
Lemma search_loop_named q : forall todo results,
  (forall it, In it todo -> name it <> None) ->
  search_loop q todo results = Return (results ++ filter (search_keep q) todo).
Proof.
  induction todo as [|it todo IH]; intros results Hn; cbn [search_loop filter].
  - now rewrite app_nil_r.
  - destruct (name it) as [n|] eqn:E.
    + rewrite (search_test_named q it n E).
      destruct (search_keep q it).
      * rewrite IH by (intros; apply Hn; now right).
        now rewrite <- app_assoc.
      * apply IH. intros; apply Hn; now right.
    + exfalso. apply (Hn it); [now left | exact E].
Qed.

Lemma search_items_named q (db : store) :
  names_present db ->
  search_items q db = (Return (filter (search_keep q) (dict_values db)), db).
Proof.
  intros Hn. unfold search_items, bind, values.
  now rewrite (search_loop_named q _ [] Hn).
Qed.

(** An item without a name stops the loop with an exception. *)
Lemma search_loop_unnamed q : forall todo results,
  (exists it, In it todo /\ name it = None) ->
  search_loop q todo results = Raise (AttributeError "lower").
Proof.
  induction todo as [|it todo IH]; intros results [bad [Hin Hbad]].
  - destruct Hin.
  - cbn [search_loop]. destruct (name it) as [n|] eqn:E.
    + rewrite (search_test_named q it n E).
      assert (Hex : exists it', In it' todo /\ name it' = None).
      { destruct Hin as [->|Hin]; [congruence | eauto]. }
      destruct (search_keep q it); now apply IH.
    + unfold search_test. now rewrite E.
Qed.

Lemma lower_WIDGET : lower "WIDGET" = "widget".
Proof. reflexivity. Qed.

End SearchFacts.

Lemma two_items_reachable : reachable two_items.
Proof.
  change two_items with
    (snd (create_item "id-2" widget_request
            (snd (create_item "id-1" bolt_request items_db)))).
  apply reach_create, reach_create, reach_init.
Qed.

(** C7 fails on the code.  After two items are created and the first is
    updated with [{"name": null}], the store still holds the item named
    widget-1, which the query WIDGET matches and which [search_items] returned
    before the update; now [search_items] raises on the item without a name and
    returns nothing.  The loop tests [description] before it calls [lower] on
    it, and does not test [name]. *)
Theorem search_items_null_name_raises :
  reachable two_items_name_null /\
  dict_get "id-2" two_items_name_null = Some widget /\
  search_matches "WIDGET" widget /\
  search_items "WIDGET" two_items = (Return [widget], two_items) /\
  search_items "WIDGET" two_items_name_null =
    (Raise (AttributeError "lower"), two_items_name_null).
Proof.
  split; [apply reach_update, two_items_reachable|].
  split; [reflexivity|]. split; [|split; reflexivity].
  left. exists "widget-1". split; [reflexivity|].
  apply StrFacts.contains_spec. reflexivity.
Qed.

(** The example of the specification, evaluated. *)
Example search_WIDGET :
  search_items "WIDGET" two_items = (Return [widget], two_items).
Proof. reflexivity. Qed.

(** On a store whose items have names, [search_items] with the empty query
    returns every stored item, in the order of the dictionary, whether or not
    a name or a description is the empty string. *)
Theorem search_items_empty_query (db : store) :
  names_present db ->
  search_items EmptyString db = (Return (dict_values db), db).
Proof.
  intros Hn. rewrite (search_items_named _ _ Hn). do 2 f_equal.
  apply forallb_filter_id. apply forallb_forall. intros it Hin.
  destruct (name it) as [n|] eqn:E; [|exfalso; now apply (Hn it)].
  unfold search_keep, search_test. rewrite E. cbn [Str.lower].
  now rewrite StrFacts.contains_empty.
Qed.

Lemma search_items_empty_query_witness :
  names_present three_items /\
  search_items EmptyString three_items =
    (Return [bolt; widget; unnamed], three_items).
Proof.
  assert (H : names_present three_items).
  { intros it [<-|[<-|[<-|[]]]]; discriminate. }
  split; [exact H|].
  apply (search_items_empty_query three_items H).
Defined.

(** C9 fails on the code.  After an item is created and updated with
    [{"name": null}], the store holds one item; [search_items] with the empty
    query returned the stored item before the update, and now raises instead
    of returning it. *)
Theorem search_items_empty_query_raises :
  reachable one_item_name_null /\
  dict_values one_item_name_null =
    [mkItem "id-1" None None (Some 1.5%float) (Some true)] /\
  search_items EmptyString one_item = (Return [bolt], one_item) /\
  search_items EmptyString one_item_name_null =
    (Raise (AttributeError "lower"), one_item_name_null).
Proof.
  split.
  - apply reach_update.
    change one_item with (snd (create_item "id-1" bolt_request items_db)).
    apply reach_create, reach_init.
  - repeat split.
Qed.

(** ** The association list is a dictionary *)

(** On distinct keys, [del] removes one entry. *)
Lemma dict_delitem_length (k : string) (it : Item) (d : store) :
  dict_wf d -> dict_get k d = Some it ->
  S (length (dict_delitem k d)) = length d.
Proof.
  unfold dict_wf. induction d as [|[k' v'] d IH]; simpl; [discriminate|].
  intros Hwf. inversion Hwf as [|? ? Hnotin Hwf']; subst.
  destruct (String.eqb_spec k k') as [->|Hne]; simpl.
  - intros _. f_equal. unfold dict_delitem.
    assert (G : forall d' : store, ~ In k' (dict_keys d') ->
              filter (fun kv => negb (String.eqb k' (fst kv))) d' = d').
    { induction d' as [|[k1 v1] d' IH']; simpl; auto.
      intros Hn. destruct (String.eqb_spec k' k1) as [->|]; simpl.
      - exfalso. apply Hn. now left.
      - rewrite IH'; auto. }
    now rewrite G.
  - intros H. f_equal. now apply IH.
Qed.

(** Every store the program reaches has distinct keys. *)
Lemma reachable_wf (db : store) : reachable db -> dict_wf db.
Proof.
  induction 1 as [| uuid4 item db _ IH | item_id u db _ IH | item_id db _ IH].
  - constructor.
  - rewrite create_item_run. now apply dict_wf_setitem.
  - destruct (dict_get item_id db) as [old|] eqn:E.
    + rewrite (update_item_present _ _ _ _ E). now apply dict_wf_setitem.
    + now rewrite (update_item_absent _ _ _ E).
  - destruct (dict_get item_id db) as [old|] eqn:E.
    + rewrite (delete_item_present _ _ _ E). now apply dict_wf_delitem.
    + now rewrite (delete_item_absent _ _ E).
Qed.

Lemma In_setitem (k k' : string) (v w : Item) (d : store) :
  In (k', w) (dict_setitem k v d) -> (k', w) = (k, v) \/ In (k', w) d.
Proof.
  induction d as [|[k1 v1] d IH]; simpl.
  - intros [H|[]]. now left.
  - destruct (String.eqb k k1); simpl.
    + intros [H|H]; [now left | right; now right].
    + intros [H|H]; [right; now left |].
      destruct (IH H); [now left | right; now right].
Qed.

Lemma dict_get_In_pair (k : string) (v : Item) (d : store) :
  dict_get k d = Some v -> In (k, v) d.
Proof.
  induction d as [|[k1 v1] d IH]; simpl; [discriminate|].
  destruct (String.eqb_spec k k1) as [->|]; intros H.
  - left. congruence.
  - right. auto.
Qed.

(** Every stored item sits under its own [id]. *)
Lemma reachable_keyed (db : store) :
  reachable db -> forall k it, In (k, it) db -> id it = k.
Proof.
  induction 1 as [| uuid4 item db _ IH | item_id u db _ IH | item_id db _ IH];
    intros k it Hin.
  - destruct Hin.
  - rewrite create_item_run in Hin. cbn [snd] in Hin.
    apply In_setitem in Hin. destruct Hin as [E|Hin]; [|now apply IH].
    now inversion E.
  - destruct (dict_get item_id db) as [old|] eqn:E.
    + rewrite (update_item_present _ _ _ _ E) in Hin. cbn [snd] in Hin.
      apply In_setitem in Hin. destruct Hin as [E'|Hin]; [|now apply IH].
      inversion E'; subst.
      destruct (fold_setattr_fields u old) as (Fid & _). rewrite Fid.
      apply IH. now apply dict_get_In_pair.
    + rewrite (update_item_absent _ _ _ E) in Hin. now apply IH.
  - destruct (dict_get item_id db) as [old|] eqn:E.
    + rewrite (delete_item_present _ _ _ E) in Hin. cbn [snd] in Hin.
      apply filter_In in Hin. now apply IH.
    + rewrite (delete_item_absent _ _ E) in Hin. now apply IH.
Qed.

(** * Further properties of the handlers *)

(** ** More on dictionaries *)

Lemma dict_delitem_absent (k : string) (d : store) :
  dict_get k d = None -> dict_delitem k d = d.
Proof.
  induction d as [|[k' v'] d IH]; simpl; auto.
  destruct (String.eqb k k'); simpl; [discriminate|].
  intros H. now rewrite IH.
Qed.

Lemma dict_get_app_None (k : string) (d1 d2 : store) :
  dict_get k d1 = None -> dict_get k (d1 ++ d2) = dict_get k d2.
Proof.
  induction d1 as [|[k' v'] d1 IH]; simpl; auto.
  destruct (String.eqb k k'); [discriminate | exact IH].
Qed.

Lemma dict_setitem_length (k : string) (v : Item) (d : store) :
  length (dict_setitem k v d) =
  (length d + if dict_contains k d then 0 else 1)%nat.
Proof.
  unfold dict_contains. induction d as [|[k' v'] d IH]; simpl; auto.
  destruct (String.eqb k k'); simpl; [lia|].
  rewrite IH. destruct (dict_get k d); lia.
Qed.

(** Where the entry that [del] removes sits. *)
Lemma dict_delitem_split (k : string) (v : Item) (d : store) :
  dict_wf d -> dict_get k d = Some v ->
  exists pre post,
    d = pre ++ (k, v) :: post /\
    dict_delitem k d = pre ++ post /\
    dict_get k pre = None.
Proof.
  unfold dict_wf. induction d as [|[k' v'] d IH]; simpl; [discriminate|].
  intros Hwf. inversion Hwf as [|? ? Hnotin Hwf']; subst.
  destruct (String.eqb_spec k k') as [->|Hne]; simpl.
  - intros E. injection E as ->. exists [], d. repeat split.
    apply dict_delitem_absent. now apply dict_get_None_keys.
  - intros E. destruct (IH Hwf' E) as (pre & post & Hd & Hdel & Hpre).
    exists ((k', v') :: pre), post. split; [|split].
    + simpl. now rewrite <- Hd.
    + simpl. f_equal. exact Hdel.
    + simpl. destruct (String.eqb_spec k k'); congruence.
Qed.

(** ** What is under a key *)

(** X1: in every store the program reaches, the item that [read_item] returns
    for an id has that id in its [id] attribute: [create_item] files an item
    under its own id and [update_item] never assigns [id]. *)
Theorem read_item_returns_own_id (db : store) :
  reachable db ->
  forall item_id it, fst (read_item item_id db) = Return it -> id it = item_id.
Proof.
  intros Hr item_id it H.
  destruct (dict_get item_id db) as [old|] eqn:E.
  - rewrite (read_item_present _ _ _ E) in H. injection H as <-.
    apply (reachable_keyed db Hr). now apply dict_get_In_pair.
  - rewrite (read_item_absent _ _ E) in H. discriminate.
Qed.

Lemma read_item_returns_own_id_witness :
  reachable (snd (update_item "id-1" rename_update one_item)) /\
  forall item_id it,
    fst (read_item item_id (snd (update_item "id-1" rename_update one_item)))
      = Return it ->
    id it = item_id.
Proof.
  assert (H : reachable (snd (update_item "id-1" rename_update one_item))).
  { apply reach_update.
    change one_item with (snd (create_item "id-1" bolt_request items_db)).
    apply reach_create, reach_init. }
  split; [exact H|].
  apply (read_item_returns_own_id _ H).
Defined.

(** ** Counting entries *)

(** X2: [create_item] never raises, whatever identifier was drawn.  When the
    identifier is a new key the count that [health_check] reports grows by one;
    when it is already a key the count and the order of the keys stay and the
    item that was under it is replaced by the new one. *)
Theorem create_item_count uuid4 (item : ItemCreate) (db : store) :
  exists new db',
    create_item uuid4 item db = (Return new, db') /\
    dict_get uuid4 db' = Some new /\
    fst (health_check db') =
      Return ("healthy",
              (dict_len db + if dict_contains uuid4 db then 0 else 1)%Z) /\
    (dict_contains uuid4 db = true -> dict_keys db' = dict_keys db) /\
    (dict_contains uuid4 db = false -> dict_keys db' = dict_keys db ++ [uuid4]).
Proof.
  rewrite create_item_run. do 2 eexists. split; [reflexivity|].
  split; [apply dict_get_setitem_eq|]. split; [|split].
  - unfold health_check, dict_len. cbn [fst]. do 2 f_equal.
    rewrite dict_setitem_length. destruct (dict_contains uuid4 db); lia.
  - unfold dict_contains. destruct (dict_get uuid4 db) as [old|] eqn:E;
      [intros _ | discriminate].
    apply (dict_keys_setitem_present _ _ _ _ E).
  - intros H. apply dict_contains_false in H.
    rewrite (dict_setitem_fresh _ _ _ H). unfold dict_keys.
    now rewrite map_app.
Qed.

(** X3: on a dictionary, [delete_item] of an id that is a key returns, removes
    that one entry and keeps the others in their order, so the count that
    [health_check] reports drops by one; afterwards [read_item] and
    [update_item] raise the 404 error for that id, and [read_item] answers for
    every other id as before. *)
Theorem delete_item_removes item_id (old : Item) (item_update : ItemUpdate)
    (db : store) :
  dict_wf db ->
  dict_get item_id db = Some old ->
  exists msg db' pre post,
    delete_item item_id db = (Return msg, db') /\
    db = pre ++ (item_id, old) :: post /\
    db' = pre ++ post /\
    fst (health_check db') = Return ("healthy", (dict_len db - 1)%Z) /\
    read_item item_id db' = (Raise NotFoundError, db') /\
    update_item item_id item_update db' = (Raise NotFoundError, db') /\
    (forall k, k <> item_id -> fst (read_item k db') = fst (read_item k db)).
Proof.
  intros Hwf E.
  destruct (dict_delitem_split _ _ _ Hwf E) as (pre & post & Hdb & Hdel & Hpre).
  exists "Item deleted successfully", (dict_delitem item_id db), pre, post.
  split; [apply (delete_item_present _ _ _ E)|].
  split; [exact Hdb|]. split; [exact Hdel|]. split; [|split; [|split]].
  - unfold health_check, dict_len. cbn [fst]. do 2 f_equal.
    rewrite Hdel, Hdb, !length_app. cbn [length]. lia.
  - apply read_item_absent, dict_get_delitem_eq.
  - apply update_item_absent, dict_get_delitem_eq.
  - intros k Hk.
    assert (G : dict_get k (dict_delitem item_id db) = dict_get k db)
      by (apply dict_get_delitem_neq; congruence).
    destruct (dict_get k db) as [it|] eqn:Ek.
    + now rewrite (read_item_present _ _ _ G), (read_item_present _ _ _ Ek).
    + now rewrite (read_item_absent _ _ G), (read_item_absent _ _ Ek).
Qed.

Lemma delete_item_removes_witness :
  dict_wf two_items /\ dict_get "id-1" two_items = Some bolt /\
  exists msg db' pre post,
    delete_item "id-1" two_items = (Return msg, db') /\
    two_items = pre ++ ("id-1", bolt) :: post /\
    db' = pre ++ post /\
    fst (health_check db') = Return ("healthy", (dict_len two_items - 1)%Z) /\
    read_item "id-1" db' = (Raise NotFoundError, db') /\
    update_item "id-1" price_only db' = (Raise NotFoundError, db') /\
    (forall k, k <> "id-1" ->
       fst (read_item k db') = fst (read_item k two_items)).
Proof.
  assert (Hwf : dict_wf two_items).
  { unfold dict_wf. simpl. repeat constructor; simpl; intuition discriminate. }
  split; [exact Hwf|]. split; [reflexivity|].
  apply (delete_item_removes "id-1" bolt price_only two_items Hwf).
  reflexivity.
Defined.

(** X4: creating an item under an identifier that is not yet a key and then
    deleting that identifier gives back the store there was before, entry for
    entry. *)
Theorem create_then_delete uuid4 (item : ItemCreate) (db : store) :
  dict_get uuid4 db = None ->
  (create_item uuid4 item ;; delete_item uuid4) db =
  (Return "Item deleted successfully", db).
Proof.
  intros Hfresh. unfold bind at 1. rewrite create_item_run.
  rewrite (dict_setitem_fresh _ _ _ Hfresh).
  erewrite delete_item_present.
  2:{ rewrite (dict_get_app_None _ _ _ Hfresh). simpl.
      now rewrite String.eqb_refl. }
  f_equal. unfold dict_delitem. rewrite filter_app. cbn [filter fst].
  rewrite String.eqb_refl. cbn [negb]. rewrite app_nil_r.
  now apply dict_delitem_absent.
Qed.

Lemma create_then_delete_witness :
  dict_get "id-3" two_items = None /\
  (create_item "id-3" bolt_request ;; delete_item "id-3") two_items =
  (Return "Item deleted successfully", two_items).
Proof.
  split; [reflexivity|].
  apply (create_then_delete "id-3" bolt_request two_items).
  reflexivity.
Defined.

(** ** More on updates *)

Lemma Item_ext (a b : Item) :
  id a = id b -> name a = name b -> description a = description b ->
  price a = price b -> in_stock a = in_stock b -> a = b.
Proof. destruct a, b; simpl; congruence. Qed.

(** The assignments of [u1] followed by those of [u2] are those of the merged
    request. *)
Lemma fold_setattr_merge (u1 u2 : ItemUpdate) (it : Item) :
  fold_left setattr (dict_exclude_unset u2)
    (fold_left setattr (dict_exclude_unset u1) it) =
  fold_left setattr (dict_exclude_unset (merge_update u1 u2)) it.
Proof.
  destruct (fold_setattr_fields u1 it) as (A1 & A2 & A3 & A4 & A5).
  destruct (fold_setattr_fields u2
              (fold_left setattr (dict_exclude_unset u1) it))
    as (B1 & B2 & B3 & B4 & B5).
  destruct (fold_setattr_fields (merge_update u1 u2) it)
    as (M1 & M2 & M3 & M4 & M5).
  apply Item_ext; [congruence|..].
  - rewrite B2, M2, A2. cbn. now destruct (u_name u2), (u_name u1).
  - rewrite B3, M3, A3. cbn.
    now destruct (u_description u2), (u_description u1).
  - rewrite B4, M4, A4. cbn. now destruct (u_price u2), (u_price u1).
  - rewrite B5, M5, A5. cbn. now destruct (u_in_stock u2), (u_in_stock u1).
Qed.

Lemma merge_update_same (u : ItemUpdate) : merge_update u u = u.
Proof. destruct u as [[?|] [?|] [?|] [?|]]; reflexivity. Qed.

(** X5: an update whose body sets no field returns the stored item as it is and
    leaves the store exactly as it was. *)
Theorem update_item_empty_body item_id (old : Item) (db : store) :
  dict_get item_id db = Some old ->
  update_item item_id empty_update db = (Return old, db).
Proof.
  intros E. rewrite (update_item_present _ _ _ _ E). cbn [fold_left
    dict_exclude_unset empty_update opt_entry u_name u_description u_price
    u_in_stock app].
  now rewrite (dict_setitem_same _ _ _ E).
Qed.

Lemma update_item_empty_body_witness :
  dict_get "id-2" two_items = Some widget /\
  update_item "id-2" empty_update two_items = (Return widget, two_items).
Proof.
  split; [reflexivity|].
  apply (update_item_empty_body "id-2" widget two_items). reflexivity.
Defined.

(** X6: two updates of the same stored item, one after the other, have the
    result and leave the store of the single update that sets each field to the
    value the later request gives it, or else the earlier one; so sending the
    same update twice changes nothing more than sending it once. *)
Theorem update_item_twice item_id (u1 u2 : ItemUpdate) (old : Item)
    (db : store) :
  dict_get item_id db = Some old ->
  (update_item item_id u1 ;; update_item item_id u2) db =
    update_item item_id (merge_update u1 u2) db /\
  (update_item item_id u1 ;; update_item item_id u1) db =
    update_item item_id u1 db.
Proof.
  intros E.
  assert (G : forall u v,
            (update_item item_id u ;; update_item item_id v) db =
            update_item item_id (merge_update u v) db).
  { intros u v. unfold bind at 1. rewrite (update_item_present _ _ _ _ E).
    rewrite (update_item_present _ v _ _ (dict_get_setitem_eq _ _ _)).
    rewrite (update_item_present _ _ _ _ E).
    now rewrite dict_setitem_twice, fold_setattr_merge. }
  split; [apply G|]. now rewrite G, merge_update_same.
Qed.

Lemma update_item_twice_witness :
  dict_get "id-1" two_items = Some bolt /\
  (update_item "id-1" price_only ;; update_item "id-1" rename_update) two_items
    = update_item "id-1" (merge_update price_only rename_update) two_items /\
  (update_item "id-1" price_only ;; update_item "id-1" price_only) two_items
    = update_item "id-1" price_only two_items.
Proof.
  split; [reflexivity|].
  apply (update_item_twice "id-1" price_only rename_update bolt two_items).
  reflexivity.
Defined.

(** X7: [update_item] never adds, removes or reorders entries: whether it
    returns or raises, the keys of the store and the count that [health_check]
    reports are what they were. *)
Theorem update_item_keeps_keys item_id (item_update : ItemUpdate)
    (db : store) :
  dict_keys (snd (update_item item_id item_update db)) = dict_keys db /\
  fst (health_check (snd (update_item item_id item_update db))) =
    fst (health_check db).
Proof.
  assert (K : dict_keys (snd (update_item item_id item_update db))
              = dict_keys db).
  { destruct (dict_get item_id db) as [old|] eqn:E.
    - rewrite (update_item_present _ _ _ _ E). cbn [snd].
      apply (dict_keys_setitem_present _ _ _ _ E).
    - now rewrite (update_item_absent _ _ _ E). }
  split; [exact K|].
  unfold health_check, dict_len. cbn [fst]. do 3 f_equal.
  apply (f_equal (@length string)) in K. unfold dict_keys in K.
  now rewrite !length_map in K.
Qed.

(** ** The handlers that only read *)

(** X8: the handlers of the GET routes never change the store: [read_root],
    [read_items], [read_item], [search_items] and [health_check] leave it as
    they found it, whether they return or raise and whatever their
    arguments. *)
Theorem get_handlers_keep_store (skip limit : Z) item_id (q : string)
    (db : store) :
  snd (read_root db) = db /\
  snd (read_items skip limit db) = db /\
  snd (read_item item_id db) = db /\
  snd (search_items q db) = db /\
  snd (health_check db) = db.
Proof.
  repeat split.
  destruct (dict_get item_id db) as [it|] eqn:E.
  - now rewrite (read_item_present _ _ _ E).
  - now rewrite (read_item_absent _ _ E).
Qed.

(** ** More on listing *)

Lemma firstn_plus {A} (a b : nat) (l : list A) :
  firstn (a + b) l = firstn a l ++ firstn b (skipn a l).
Proof.
  revert l. induction a as [|a IH]; intros l; simpl; auto.
  destruct l as [|x l]; simpl.
  - now rewrite firstn_nil.
  - now rewrite IH.
Qed.

(** Any slice is a run of consecutive elements of the list. *)
Lemma slice_run {A} (l : list A) (start stop : Z) :
  exists pre post, l = pre ++ slice l start stop ++ post.
Proof.
  unfold slice.
  destruct (_ <? _)%Z.
  - exists (firstn (Z.to_nat (slice_bound start (Z.of_nat (length l)))) l).
    eexists. rewrite firstn_skipn.
    now rewrite firstn_skipn.
  - exists l, []. now rewrite app_nil_r.
Qed.

(** X9: pages join up.  With [skip], [limit] and [limit'] not negative, the
    page of [limit] items at [skip] followed by the page of [limit'] items at
    [skip + limit] is the page of [limit + limit'] items at [skip]: paging
    through the list neither repeats nor skips an item. *)
Theorem read_items_pages (skip limit limit' : Z) (db : store) :
  (0 <= skip)%Z -> (0 <= limit)%Z -> (0 <= limit')%Z ->
  exists page1 page2,
    read_items skip limit db = (Return page1, db) /\
    read_items (skip + limit) limit' db = (Return page2, db) /\
    read_items skip (limit + limit') db = (Return (page1 ++ page2), db).
Proof.
  intros Hs Hl Hl'. rewrite !read_items_run, !slice_nonneg by lia.
  do 2 eexists. split; [reflexivity|]. split; [reflexivity|].
  do 2 f_equal.
  replace (Z.to_nat (limit + limit')) with (Z.to_nat limit + Z.to_nat limit')%nat
    by lia.
  rewrite firstn_plus, skipn_skipn.
  now replace (Z.to_nat (skip + limit)) with (Z.to_nat limit + Z.to_nat skip)%nat
    by lia.
Qed.

Lemma read_items_pages_witness :
  (0 <= 0)%Z /\ (0 <= 1)%Z /\ (0 <= 5)%Z /\
  exists page1 page2,
    read_items 0 1 three_items = (Return page1, three_items) /\
    read_items (0 + 1) 5 three_items = (Return page2, three_items) /\
    read_items 0 (1 + 5) three_items = (Return (page1 ++ page2), three_items).
Proof.
  split; [lia|]. split; [lia|]. split; [lia|].
  apply (read_items_pages 0 1 5 three_items); lia.
Defined.

(** X10: whatever the integers [skip] and [limit], negative ones included,
    [read_items] returns, and what it returns is a run of consecutive stored
    items in the order of the dictionary: it never raises, never repeats or
    reorders an item and never returns one that is not stored. *)
Theorem read_items_run_of_values (skip limit : Z) (db : store) :
  exists r pre post,
    read_items skip limit db = (Return r, db) /\
    dict_values db = pre ++ r ++ post /\
    (Z.of_nat (length r) <= dict_len db)%Z.
Proof.
  rewrite read_items_run.
  destruct (slice_run (dict_values db) skip (skip + limit))
    as (pre & post & H).
  exists (slice (dict_values db) skip (skip + limit)), pre, post.
  split; [reflexivity|]. split; [exact H|].
  apply (f_equal (@length Item)) in H.
  rewrite !length_app in H. unfold dict_len.
  unfold dict_values in H at 1. rewrite length_map in H. lia.
Qed.

(** X11: called with the defaults of its signature, [read_items] returns the
    first hundred stored items: all of them when the store has at most a
    hundred entries, and otherwise a hundred of them and no more.  With
    [skip = 0] and any [limit] that is at least the number of entries it returns
    every stored item. *)
Theorem read_items_default_first_hundred (db : store) :
  read_items_default db = (Return (firstn 100 (dict_values db)), db) /\
  ((dict_len db <= 100)%Z ->
   read_items_default db = (Return (dict_values db), db)) /\
  ((100 < dict_len db)%Z ->
   exists r, read_items_default db = (Return r, db) /\ length r = 100%nat) /\
  (forall limit, (dict_len db <= limit)%Z ->
     read_items 0 limit db = (Return (dict_values db), db)).
Proof.
  assert (Hlen : dict_len db = Z.of_nat (length (dict_values db))).
  { unfold dict_len, dict_values. now rewrite length_map. }
  assert (G : forall limit, (0 <= limit)%Z ->
            read_items 0 limit db =
            (Return (firstn (Z.to_nat limit) (dict_values db)), db)).
  { intros limit Hl. rewrite read_items_run, slice_nonneg by lia.
    reflexivity. }
  unfold read_items_default. split; [apply G; lia|].
  split; [|split].
  - intros H. rewrite G by lia. now rewrite firstn_all2 by lia.
  - intros H. eexists. split; [apply G; lia|].
    rewrite length_firstn. lia.
  - intros limit H. rewrite G by lia. now rewrite firstn_all2 by lia.
Qed.

(** ** More on search *)

(** Either every stored item has a name, or one can be shown that has not. *)
Lemma names_present_or_not (db : store) :
  names_present db \/ exists it, In it (dict_values db) /\ name it = None.
Proof.
  unfold names_present. induction db as [|[k v] db IH]; simpl.
  - left. intros it [].
  - destruct (name v) as [n|] eqn:E.
    + destruct IH as [IH | (it & Hin & Hit)].
      * left. intros it [<-|Hin]; [congruence | auto].
      * right. exists it. auto.
    + right. exists v. auto.
Qed.

Lemma search_test_lower (q q' : string) (it : Item) :
  Str.lower q = Str.lower q' -> search_test q it = search_test q' it.
Proof. intros H. unfold search_test. now rewrite H. Qed.

Lemma search_loop_lower (q q' : string) :
  Str.lower q = Str.lower q' ->
  forall todo results, search_loop q todo results = search_loop q' todo results.
Proof.
  intros H. induction todo as [|it todo IH]; intros results; simpl; auto.
  rewrite (search_test_lower q q' it H).
  destruct (search_test q' it) as [[|]|e]; auto.
Qed.

(** X12: [search_items] raises exactly when some stored item has [None] for a
    name, and the exception is then the [AttributeError] of calling [lower] on
    it, whatever the query and wherever the item sits; it returns exactly when
    every stored item has a name. *)
Theorem search_items_raises_iff (q : string) (db : store) :
  (fst (search_items q db) = Raise (AttributeError "lower")
   <-> exists it, In it (dict_values db) /\ name it = None) /\
  ((exists results, fst (search_items q db) = Return results)
   <-> names_present db) /\
  (forall e, fst (search_items q db) = Raise e -> e = AttributeError "lower").
Proof.
  assert (R : (exists it, In it (dict_values db) /\ name it = None) ->
              fst (search_items q db) = Raise (AttributeError "lower")).
  { intros H. unfold search_items, bind, values. cbn [fst].
    now apply search_loop_unnamed. }
  destruct (names_present_or_not db) as [Hn | Hbad].
  - rewrite (search_items_named q db Hn). cbn [fst]. split; [|split].
    + split; [discriminate|].
      intros (it & Hin & Hit). exfalso. now apply (Hn it).
    + split; [intros _; exact Hn | intros _; eauto].
    + discriminate.
  - rewrite (R Hbad). split; [|split].
    + split; [intros _; exact Hbad | reflexivity].
    + split; [intros [r H]; discriminate|].
      intros Hn. destruct Hbad as (it & Hin & Hit). exfalso.
      now apply (Hn it).
    + intros e H. now injection H as <-.
Qed.

(** X13: the letter case of the query does not matter: two queries with the
    same lowered form have the same outcome on every store, and so a query and
    its lowered form do. *)
Theorem search_items_query_case (q : string) (db : store) :
  (forall q', Str.lower q = Str.lower q' ->
     search_items q db = search_items q' db) /\
  search_items (Str.lower q) db = search_items q db.
Proof.
  assert (G : forall a b, Str.lower a = Str.lower b ->
            search_items a db = search_items b db).
  { intros a b H. unfold search_items, bind, values.
    now rewrite (search_loop_lower a b H). }
  split; [apply G|]. apply G, StrFacts.lower_idem.
Qed.

(** ** Keeping the annotations *)

Lemma items_db_valid : store_valid items_db.
Proof. intros it []. Qed.

Lemma store_valid_names (db : store) : store_valid db -> names_present db.
Proof. intros Hv it Hin. now destruct (Hv it Hin). Qed.

(** X14: as long as no update request sets [name], [price] or [in_stock] to
    null, every stored item has a name, a price and a stock flag, as [ItemBase]
    annotates, and [search_items] returns for every query. *)
Theorem reachable_nonnull_valid (db : store) :
  reachable_nonnull db ->
  store_valid db /\
  (forall it, In it (dict_values db) ->
     exists n p s,
       name it = Some n /\ price it = Some p /\ in_stock it = Some s) /\
  (forall q, exists results, search_items q db = (Return results, db)).
Proof.
  intros Hr.
  assert (Hv : store_valid db).
  { induction Hr as [| uuid4 item db _ IH | item_id u db Hu _ IH
                     | item_id db _ IH].
    - exact items_db_valid.
    - now apply create_item_valid.
    - now apply update_item_valid.
    - now apply delete_item_valid. }
  split; [exact Hv|]. split.
  - intros it Hin. destruct (Hv it Hin) as (Hn & Hp & Hs).
    destruct (name it) as [n|]; [|congruence].
    destruct (price it) as [p|]; [|congruence].
    destruct (in_stock it) as [s|]; [|congruence].
    now exists n, p, s.
  - intros q. eexists. apply search_items_named. now apply store_valid_names.
Qed.

Lemma reachable_nonnull_valid_witness :
  reachable_nonnull (snd (update_item "id-1" rename_update one_item)) /\
  store_valid (snd (update_item "id-1" rename_update one_item)) /\
  (forall it,
     In it (dict_values (snd (update_item "id-1" rename_update one_item))) ->
     exists n p s,
       name it = Some n /\ price it = Some p /\ in_stock it = Some s) /\
  (forall q, exists results,
     search_items q (snd (update_item "id-1" rename_update one_item)) =
     (Return results, snd (update_item "id-1" rename_update one_item))).
Proof.
  assert (H : reachable_nonnull
                (snd (update_item "id-1" rename_update one_item))).
  { apply reachn_update.
    - repeat split; discriminate.
    - change one_item with (snd (create_item "id-1" bolt_request items_db)).
      apply reachn_create, reachn_init. }
  split; [exact H|].
  apply (reachable_nonnull_valid _ H).
Defined.

(** ** Finding what was created *)



